(** * Icon generator: [build/generate_icons.py]

    A shallow embedding of the script and the properties of its runs.

    The script is a single procedure, [generate_icons], followed by the
    [__main__] block that turns its boolean result into an exit status.
    Everything it does is an effect: it imports two third-party libraries,
    looks at the working directory, calls the rasteriser, prints progress
    lines and writes files.  The embedding therefore is a small
    state-and-exception monad over a [world] (working directory and
    console); the third-party libraries are opaque and enter as the fields
    of an environment record [env]. *)

From Stdlib Require Import ZArith DecimalString DecimalPos DecimalZ.
From stdpp Require Import gmap strings list fin_maps.

Local Open Scope Z_scope.
Local Open Scope string_scope.

(** ** Data *)

(** Raw file contents ([bytes] objects in the script). *)
Abbreviation bytes := (list Byte.byte).

(** What a [raise] can carry.  [NameError] and [ImportError] come from the
    interpreter, [OSError] from [open], [SystemExit] from [sys.exit];
    [LibraryError] stands for whatever cairosvg or Pillow raise on their
    own: while they are imported (a shared library that cannot be loaded),
    or in a call (malformed SVG, unreadable input, unsupported image, ...). *)
Inductive exn : Type :=
| ImportError (module : string)
| NameError (name : string)
| IndexError
| OSError (msg : string)
| LibraryError (msg : string)
| SystemExit (code : Z).

(** How a call ends: with a value, or with an exception on its way up. *)
Inductive outcome (A : Type) : Type :=
| Returned (a : A)
| Raised (e : exn).
Arguments Returned {A} a.
Arguments Raised {A} e.

(** The part of the machine the script can observe and change: the files
    of the working directory and the lines printed so far. *)
Record world : Type := World {
  files : gmap string bytes;
  console : list string
}.

(** A Pillow image handle, as far as the script looks at it. *)
Record image : Type := Image {
  width : Z;
  height : Z;
  pixels : bytes
}.

(** How an import statement for a third-party module ends: the module is
    loaded; it is not found, which is an [ImportError]; or its own start-up
    code raises something else (cairosvg does when the cairo library cannot
    be loaded). *)
Inductive import_outcome : Type :=
| Imported
| NotFound
| StartupFailed (msg : string).

(** The collaborators of the script.  The rasteriser is a function of the
    contents found at the URL ([None] when there is no such file) and of the
    requested width and height; it has no effect of its own on the working
    directory.  Whether a file can be opened for writing is a condition of
    the surroundings (permissions, a directory in the way), given per name
    and fixed for the runs considered. *)
Record env : Type := Env {
  import_of : string -> import_outcome;
  svg2png_render : option bytes -> Z -> Z -> string + bytes;
  open_wb_error : string -> option string;
  Image_open : bytes -> string + image;
  ico_encode : image -> list (Z * Z) -> string + bytes
}.

(** The import statement for [m] completes. *)
Definition installed (E : env) (m : string) : bool :=
  match import_of E m with
  | Imported => true
  | _ => false
  end.

(** ** The monad *)

Definition M (A : Type) : Type := world -> outcome A * world.

Definition ret {A} (a : A) : M A := fun w => (Returned a, w).

Definition raise {A} (e : exn) : M A := fun w => (Raised e, w).

Definition bind {A B} (c : M A) (k : A -> M B) : M B :=
  fun w =>
    match c w with
    | (Returned a, w') => k a w'
    | (Raised e, w') => (Raised e, w')
    end.

Declare Scope py_scope.
Delimit Scope py_scope with py.
Notation "x <- c ;; k" := (bind c (fun x => k))
  (at level 100, c at next level, right associativity) : py_scope.
Notation "c ;; k" := (bind c (fun _ => k))
  (at level 100, right associativity) : py_scope.
Local Open Scope py_scope.

(** [for x in l: body(x)] *)
Fixpoint for_each {A} (l : list A) (body : A -> M unit) : M unit :=
  match l with
  | [] => ret tt
  | x :: rest => body x ;; for_each rest body
  end.

(** [try: body / except ImportError: handler] *)
Definition try_except_ImportError {A} (body handler : M A) : M A :=
  fun w =>
    match body w with
    | (Raised (ImportError _), w') => handler w'
    | r => r
    end.

(** ** Names *)

(** The names bound at module level when [generate_icons] is called: the
    three imports of lines 7-9 and the function itself. *)
Definition module_globals : list string :=
  ["os"; "sys"; "Path"; "generate_icons"].

(** The built-in names the script reads.  (The built-in namespace of Python
    has no [io]: that module is reachable through an import only.) *)
Definition builtins_used : list string :=
  ["print"; "open"; "str"; "ImportError"].

Definition name_bound (name : string) : bool :=
  existsb (String.eqb name) (module_globals ++ builtins_used).

(** Reading a name that is not local to the function: module globals, then
    built-ins, else [NameError]. *)
Definition load_global (name : string) : M unit :=
  if name_bound name then ret tt else raise (NameError name).

(** ** Primitives *)

(** [str(n)] for an integer. *)
Definition str_int (n : Z) : string := NilZero.string_of_int (Z.to_int n).

Definition newline : string := String (Ascii.ascii_of_nat 10) "".

Definition print (line : string) : M unit :=
  load_global "print" ;;
  fun w => (Returned tt, World (files w) (console w ++ [line])).

Section Script.

Variable E : env.

(** [import m] / [from m import ...] of a third-party distribution. *)
Definition import_module (m : string) : M unit :=
  match import_of E m with
  | Imported => ret tt
  | NotFound => raise (ImportError m)
  | StartupFailed msg => raise (LibraryError msg)
  end.

(** [Path(p)]; a path is kept as its string. *)
Definition Path (p : string) : M string :=
  load_global "Path" ;; ret p.

(** [p.exists()] *)
Definition path_exists (p : string) : M bool :=
  fun w => (Returned (bool_decide (is_Some (files w !! p))), w).

(** [str(p)] for a path. *)
Definition str_path (p : string) : M string :=
  load_global "str" ;; ret p.

(** [cairosvg.svg2png(url=str(svg_file), output_width=w, output_height=h)] *)
Definition svg2png (svg_file : string) (w h : Z) : M bytes :=
  url <- str_path svg_file ;;
  fun s =>
    match svg2png_render E (files s !! url) w h with
    | inl msg => (Raised (LibraryError msg), s)
    | inr png => (Returned png, s)
    end.

(** Creating or truncating [name] and storing [data] in it. *)
Definition fs_write (name : string) (data : bytes) : M unit :=
  fun w =>
    match open_wb_error E name with
    | Some msg => (Raised (OSError msg), w)
    | None => (Returned tt, World (<[name := data]> (files w)) (console w))
    end.

(** [with open(name, 'wb') as f: f.write(data)] *)
Definition write_binary (name : string) (data : bytes) : M unit :=
  load_global "open" ;; fs_write name data.

(** [Image.open(io.BytesIO(data))]: [Image] is a local of the function,
    [io] is looked up as a global while the argument is evaluated, before
    the call takes place. *)
Definition open_image_from_bytes (data : bytes) : M image :=
  load_global "io" ;;
  match Image_open E data with
  | inl msg => raise (LibraryError msg)
  | inr img => ret img
  end.

(** [imgs[0].save(name, format='ICO', sizes=[(img.width, img.height) for img in imgs])] *)
Definition save_ico (imgs : list image) (name : string) : M unit :=
  match imgs with
  | [] => raise IndexError
  | base :: _ =>
      match ico_encode E base (map (fun img => (width img, height img)) imgs) with
      | inl msg => raise (LibraryError msg)
      | inr data => fs_write name data
      end
  end.

(** ** The script *)

(** Lines 21-36: the primary mapping, in insertion order. *)
Definition sizes : list (string * Z) :=
  [ ("icon_16x16.png", 16);
    ("icon_32x32.png", 32);
    ("icon_128x128.png", 128);
    ("icon_256x256.png", 256);
    ("icon_512x512.png", 512);
    ("icon_1024x1024.png", 1024);
    ("favicon-16x16.png", 16);
    ("favicon-32x32.png", 32);
    ("favicon-96x96.png", 96);
    ("favicon-192x192.png", 192);
    ("apple-touch-icon.png", 180) ].

Definition ico_sizes : list Z := [16; 32; 48; 64].

Definition icns_sizes : list Z := [16; 32; 128; 256; 512; 1024].

(** Line 46: [f"  {filename} ({size}x{size})"] *)
Definition progress_line (item : string * Z) : string :=
  "  " ++ fst item ++ " (" ++ str_int (snd item) ++ "x" ++ str_int (snd item) ++ ")".

(** Line 87: [f'icon_{size}x{size}.png'] *)
Definition icns_filename (size : Z) : string :=
  "icon_" ++ str_int size ++ "x" ++ str_int size ++ ".png".

(** Lines 46-57: one turn of the PNG sweep. *)
Definition png_sweep_body (svg_file : string) (item : string * Z) : M unit :=
  let '(filename, size) := item in
  print (progress_line (filename, size)) ;;
  png_data <- svg2png svg_file size size ;;
  write_binary filename png_data.

(** Lines 45-57. *)
Definition png_sweep (svg_file : string) : M unit :=
  for_each sizes (png_sweep_body svg_file).

(** Lines 64-71: the loop that fills [ico_images]. *)
Fixpoint ico_loop (svg_file : string) (todo : list Z) (ico_images : list image)
  : M (list image) :=
  match todo with
  | [] => ret ico_images
  | size :: rest =>
      png_data <- svg2png svg_file size size ;;
      img <- open_image_from_bytes png_data ;;
      ico_loop svg_file rest (ico_images ++ [img])
  end.

(** Lines 60-74. *)
Definition ico_assembly (svg_file : string) : M unit :=
  print "  favicon.ico" ;;
  ico_images <- ico_loop svg_file ico_sizes [] ;;
  save_ico ico_images "favicon.ico".

(** Lines 82-88: one turn of the ICNS staging loop. *)
Definition icns_staging_body (svg_file : string) (size : Z) : M unit :=
  png_data <- svg2png svg_file size size ;;
  write_binary (icns_filename size) png_data.

(** Lines 77-88. *)
Definition icns_staging (svg_file : string) : M unit :=
  print "  icon.icns (replacing existing)" ;;
  for_each icns_sizes (icns_staging_body svg_file).

(** Lines 90-104. *)
Definition instructions : list string :=
  [ newline ++ "Icons generated successfully!";
    newline ++ "To create ICNS file for macOS:";
    "1. Create an iconset folder: mkdir icon.iconset";
    "2. Copy PNG files with proper names:";
    "   cp icon_16x16.png icon.iconset/icon_16x16.png";
    "   cp icon_32x32.png icon.iconset/icon_16x16@2x.png";
    "   cp icon_32x32.png icon.iconset/icon_32x32.png";
    "   cp icon_128x128.png icon.iconset/icon_32x32@2x.png";
    "   cp icon_128x128.png icon.iconset/icon_128x128.png";
    "   cp icon_256x256.png icon.iconset/icon_128x128@2x.png";
    "   cp icon_256x256.png icon.iconset/icon_256x256.png";
    "   cp icon_512x512.png icon.iconset/icon_256x256@2x.png";
    "   cp icon_512x512.png icon.iconset/icon_512x512.png";
    "   cp icon_1024x1024.png icon.iconset/icon_512x512@2x.png";
    "3. Generate ICNS: iconutil -c icns icon.iconset" ].

Definition print_instructions : M unit := for_each instructions print.

(** Lines 43-106: what runs once both checks have passed. *)
Definition generate_all (svg_file : string) : M bool :=
  print "Generating icons..." ;;
  png_sweep svg_file ;;
  ico_assembly svg_file ;;
  icns_staging svg_file ;;
  print_instructions ;;
  ret true.

(** Lines 12-18: the value of the block is whether the function goes on. *)
Definition capability_check : M bool :=
  try_except_ImportError
    (import_module "cairosvg" ;; import_module "PIL" ;; ret true)
    (print "Required packages not found. Please install them:" ;;
     print "pip install cairosvg pillow" ;;
     ret false).

(** Lines 11-106. *)
Definition generate_icons : M bool :=
  capable <- capability_check ;;
  if negb capable then ret false else
  svg_file <- Path "logo.svg" ;;
  present <- path_exists svg_file ;;
  if negb present then
    print ("SVG file " ++ svg_file ++ " not found!") ;; ret false
  else generate_all svg_file.

(** [sys.exit(code)] *)
Definition sys_exit (code : Z) : M unit :=
  load_global "sys" ;; raise (SystemExit code).

(** Lines 109-110, given the value of the call: [if not ok: sys.exit(1)] *)
Definition exit_unless (ok : bool) : M unit :=
  if negb ok then sys_exit 1 else ret tt.

(** Lines 108-110. *)
Definition main : M unit :=
  ok <- generate_icons ;;
  exit_unless ok.

End Script.

(** The status the interpreter hands to the operating system: 0 when the
    module body runs to its end, the code of a [SystemExit], and 1 after
    the traceback of any other uncaught exception. *)
Definition exn_status (e : exn) : Z :=
  match e with
  | SystemExit code => code
  | _ => 1
  end.

Definition exit_status (r : outcome unit) : Z :=
  match r with
  | Returned _ => 0
  | Raised e => exn_status e
  end.

Definition run (E : env) (w : world) : Z * world :=
  let '(r, w') := main E w in (exit_status r, w').

(** ** What a sweep does, as a function of the source contents

    Both file-writing loops read [logo.svg] afresh on every turn and write
    under names other than [logo.svg].  What they do is therefore fixed by
    the environment and by the contents [src] found there when the loop
    starts; the functions below compute it without touching a [world]. *)

(** A turn of a loop for the pair [(name, size)]: the exception that ends
    it, or the bytes that it stores under [name]. *)
Definition turn_outcome (E : env) (src : option bytes) (item : string * Z)
  : exn + bytes :=
  match svg2png_render E src (snd item) (snd item) with
  | inl msg => inl (LibraryError msg)
  | inr png =>
      match open_wb_error E (fst item) with
      | Some msg => inl (OSError msg)
      | None => inr png
      end
  end.

Definition turn_ok (E : env) (src : option bytes) (item : string * Z) : bool :=
  match turn_outcome E src item with
  | inl _ => false
  | inr _ => true
  end.

(** The bytes the rasteriser hands back for a square of side [size]. *)
Definition rendered (E : env) (src : option bytes) (size : Z) : bytes :=
  match svg2png_render E src size size with
  | inl _ => []
  | inr png => png
  end.

(** The writes of a loop over [items], oldest first, and the exception that
    stopped it, if any. *)
Fixpoint sweep_plan (E : env) (src : option bytes) (items : list (string * Z))
  : list (string * bytes) * option exn :=
  match items with
  | [] => ([], None)
  | item :: rest =>
      match turn_outcome E src item with
      | inl e => ([], Some e)
      | inr png =>
          let '(ws, err) := sweep_plan E src rest in
          ((fst item, png) :: ws, err)
      end
  end.

(** The exceptions that come out of cairosvg, Pillow or [open]. *)
Definition from_collaborator (e : exn) : bool :=
  match e with
  | LibraryError _ | OSError _ => true
  | _ => false
  end.

Definition plan_outcome (err : option exn) : outcome unit :=
  match err with
  | None => Returned tt
  | Some e => Raised e
  end.

(** How many turns were entered: the completed ones and the failing one. *)
Definition turns_begun (ws : list (string * bytes)) (err : option exn) : nat :=
  (length ws + match err with None => 0 | Some _ => 1 end)%nat.

(** A directory after a sequence of writes. *)
Definition write_all (ws : list (string * bytes)) (fs : gmap string bytes)
  : gmap string bytes :=
  foldl (fun m nd => <[fst nd := snd nd]> m) fs ws.

(** The pairs of the ICNS staging loop: the name of line 87 and the size. *)
Definition icns_items : list (string * Z) :=
  map (fun size => (icns_filename size, size)) icns_sizes.

(** The exception that ends the first turn of the ICO loop (lines 65-70). *)
Definition ico_first_turn (E : env) (src : option bytes) : exn :=
  match svg2png_render E src 16 16 with
  | inl msg => LibraryError msg
  | inr _ => NameError "io"
  end.

(** Lines 43-106 in terms of [src]: the exception they end with, the lines
    they print and the files they write. *)
Definition run_exn (E : env) (src : option bytes) : exn :=
  match snd (sweep_plan E src sizes) with
  | Some e => e
  | None => ico_first_turn E src
  end.

Definition run_lines (E : env) (src : option bytes) : list string :=
  let '(ws, err) := sweep_plan E src sizes in
  "Generating icons..." ::
    map progress_line (take (turns_begun ws err) sizes) ++
    match err with
    | None => ["  favicon.ico"]
    | Some _ => []
    end.

Definition run_writes (E : env) (src : option bytes) : list (string * bytes) :=
  fst (sweep_plan E src sizes).

(** Lines 13-14 taken together: the outcome of the first import that does
    not complete, if there is one. *)
Definition imports (E : env) : import_outcome :=
  match import_of E "cairosvg" with
  | Imported => import_of E "PIL"
  | failed => failed
  end.

(** Lines 12-18 when an import does not complete: the handler of line 15
    deals with [ImportError] and lets anything else pass. *)
Definition import_failure (E : env) (w : world) : outcome bool * world :=
  match imports E with
  | StartupFailed msg => (Raised (LibraryError msg), w)
  | _ =>
      (Returned false,
       World (files w)
             (console w ++ ["Required packages not found. Please install them:";
                            "pip install cairosvg pillow"]))
  end.

(** ** Sample environments and directories *)

(** A rasteriser that answers with the source followed by the requested
    dimensions, and fails when there is no source. *)
Definition sample_render (src : option bytes) (w h : Z) : string + bytes :=
  match src with
  | None => inl "no such file"
  | Some svg =>
      inr (svg ++ String.list_byte_of_string (str_int w ++ "x" ++ str_int h))%list
  end.

Definition sample_Image_open (data : bytes) : string + image :=
  inr (Image 1 1 data).

Definition sample_ico_encode (base : image) (table : list (Z * Z))
  : string + bytes :=
  inr (pixels base).

(** Both libraries installed, every file writable. *)
Definition sample_env : env :=
  Env (fun _ => Imported) sample_render (fun _ => None)
      sample_Image_open sample_ico_encode.

(** Neither library installed. *)
Definition bare_env : env :=
  Env (fun _ => NotFound) sample_render (fun _ => None)
      sample_Image_open sample_ico_encode.

(** cairosvg is installed, but the cairo library it loads is not there. *)
Definition broken_env : env :=
  Env (fun m =>
         if String.eqb m "cairosvg"
         then StartupFailed "no library called cairo was found"
         else Imported)
      sample_render (fun _ => None) sample_Image_open sample_ico_encode.

(** A rasteriser that gives up on squares of side 96. *)
Definition picky_render (src : option bytes) (w h : Z) : string + bytes :=
  if (w =? 96)%Z then inl "render failed" else sample_render src w h.

Definition picky_env : env :=
  Env (fun _ => Imported) picky_render (fun _ => None)
      sample_Image_open sample_ico_encode.

Definition sample_svg : bytes := String.list_byte_of_string "<svg/>".

(** A working directory that holds [logo.svg] and nothing else. *)
Definition sample_world : world :=
  World {[ "logo.svg" := sample_svg ]} [].

(** An empty working directory. *)
Definition empty_world : world := World ∅ [].

(** The pair stored by a completed turn: the name and the bytes rasterised
    at the size paired with it. *)
Definition stored (E : env) (src : option bytes) (item : string * Z)
  : string * bytes :=
  (fst item, rendered E src (snd item)).

(** The environment [E] with another Pillow. *)
Definition with_pillow (E : env)
    (open_ : bytes -> string + image)
    (encode : image -> list (Z * Z) -> string + bytes) : env :=
  Env (import_of E) (svg2png_render E) (open_wb_error E) open_ encode.

(** A rasteriser that gives up on squares of side [bad]. *)
Definition refusing_render (bad : Z) (src : option bytes) (w h : Z)
  : string + bytes :=
  if (w =? bad)%Z then inl "render failed" else sample_render src w h.

Definition refusing_env (bad : Z) : env :=
  Env (fun _ => Imported) (refusing_render bad) (fun _ => None)
      sample_Image_open sample_ico_encode.

(** Both libraries installed, [icon_128x128.png] not writable. *)
Definition locked_env : env :=
  Env (fun _ => Imported) sample_render
      (fun name =>
         if String.eqb name "icon_128x128.png" then Some "Permission denied"
         else None)
      sample_Image_open sample_ico_encode.

(** * Properties *)

(** ** Directories under a sequence of writes *)

Section Writes.

Implicit Types (ws : list (string * bytes)) (fs : gmap string bytes).

Lemma write_all_cons n d ws fs :
  write_all ((n, d) :: ws) fs = write_all ws (<[n := d]> fs).
Proof. reflexivity. Qed.

Lemma write_all_other ws fs k :
  k ∉ map fst ws -> write_all ws fs !! k = fs !! k.
Proof.
  revert fs. induction ws as [|[n d] ws IH]; intros fs Hk; [done|].
  rewrite write_all_cons, IH.
  - apply lookup_insert_ne. intros ->. apply Hk. simpl. left.
  - intros Hin. apply Hk. simpl. by right.
Qed.

Lemma write_all_lookup ws fs k d :
  NoDup (map fst ws) -> (k, d) ∈ ws -> write_all ws fs !! k = Some d.
Proof.
  revert fs. induction ws as [|[n d'] ws IH]; intros fs Hnd Hin.
  - by apply elem_of_nil in Hin.
  - simpl in Hnd. apply NoDup_cons in Hnd as [Hn Hnd].
    rewrite write_all_cons. apply elem_of_cons in Hin as [Heq|Hin].
    + inversion Heq; subst. rewrite write_all_other by done.
      apply lookup_insert_eq.
    + by apply IH.
Qed.

(** Later writes win: the directory is the reversed list, as a map, laid
    over what was there. *)
Lemma write_all_union ws fs :
  write_all ws fs = list_to_map (reverse ws) ∪ fs.
Proof.
  revert fs. induction ws as [|[n d] ws IH]; intros fs.
  - simpl. by rewrite (left_id_L ∅ (∪)).
  - rewrite write_all_cons, IH, reverse_cons, list_to_map_app.
    rewrite <- (assoc_L (∪)). f_equal. simpl.
    by rewrite <- insert_union_l, (left_id_L ∅ (∪)).
Qed.

Lemma write_all_twice ws fs :
  write_all ws (write_all ws fs) = write_all ws fs.
Proof.
  rewrite !write_all_union, (assoc_L (∪)). f_equal. apply (idemp_L (∪)).
Qed.

Lemma write_all_dom ws fs :
  dom (write_all ws fs) = list_to_set (map fst ws) ∪ dom fs.
Proof.
  revert fs. induction ws as [|[n d] ws IH]; intros fs.
  - simpl. by rewrite (left_id_L ∅ (∪)).
  - rewrite write_all_cons, IH, dom_insert_L. cbn [map list_to_set fst].
    by rewrite (assoc_L (∪)), (comm_L (∪) _ {[n]}).
Qed.

(** Writing again what a directory already holds changes nothing. *)
Lemma write_all_absorb ws' ws fs :
  NoDup (map fst ws) -> ws' ⊆ ws ->
  write_all ws' (write_all ws fs) = write_all ws fs.
Proof.
  intros Hnd. induction ws' as [|[n d] ws' IH]; intros Hsub; [done|].
  rewrite write_all_cons, insert_id.
  - apply IH. intros x Hx. apply Hsub. by right.
  - apply write_all_lookup; [done|]. apply Hsub. by left.
Qed.

End Writes.

(** ** The plan of a loop *)

Section Plans.

Variable E : env.
Implicit Types (src : option bytes) (items : list (string * Z)).

Lemma sweep_plan_ok src items :
  forallb (turn_ok E src) items = true ->
  sweep_plan E src items =
  (map (fun item => (fst item, rendered E src (snd item))) items, None).
Proof.
  induction items as [|item rest IH]; [done|].
  cbn [forallb sweep_plan map]. unfold turn_ok at 1, rendered at 1.
  unfold turn_outcome.
  destruct (svg2png_render E src (snd item) (snd item)) as [msg|png]; [done|].
  destruct (open_wb_error E (fst item)); [done|].
  intros Hrest. by rewrite (IH Hrest).
Qed.

Lemma sweep_plan_completes src items :
  snd (sweep_plan E src items) = None ->
  forallb (turn_ok E src) items = true.
Proof.
  induction items as [|item rest IH]; [done|].
  cbn [forallb sweep_plan]. unfold turn_ok at 1.
  destruct (turn_outcome E src item) as [e|png]; [done|].
  destruct (sweep_plan E src rest) as [ws err]. exact IH.
Qed.

(** A loop that is stopped in the turn of [item] has done the writes of
    the turns before it, and no other. *)
Lemma sweep_plan_stopped src pre item post e :
  forallb (turn_ok E src) pre = true ->
  turn_outcome E src item = inl e ->
  sweep_plan E src (pre ++ item :: post) =
  (map (fun it => (fst it, rendered E src (snd it))) pre, Some e).
Proof.
  intros Hpre Hitem. induction pre as [|p pre IH].
  - simpl. by rewrite Hitem.
  - cbn [forallb] in Hpre. apply andb_prop in Hpre as [Hp Hpre].
    cbn [app sweep_plan map]. rewrite (IH Hpre).
    unfold turn_ok in Hp. unfold rendered, turn_outcome in *.
    destruct (svg2png_render E src (snd p) (snd p)) as [msg|png]; [done|].
    by destruct (open_wb_error E (fst p)).
Qed.

Lemma turn_ok_in src items item :
  forallb (turn_ok E src) items = true -> item ∈ items ->
  turn_ok E src item = true.
Proof.
  intros Hall Hin. apply list_elem_of_In in Hin.
  by apply (proj1 (forallb_forall _ _) Hall).
Qed.

(** A loop is stopped by the rasteriser or by [open] only. *)
Lemma sweep_plan_exn src items e :
  snd (sweep_plan E src items) = Some e -> from_collaborator e = true.
Proof.
  induction items as [|item rest IH]; [done|].
  cbn [sweep_plan]. unfold turn_outcome.
  destruct (svg2png_render E src (snd item) (snd item)) as [msg|png].
  { by intros [= <-]. }
  destruct (open_wb_error E (fst item)).
  { by intros [= <-]. }
  by destruct (sweep_plan E src rest) as [ws err].
Qed.

Lemma sweep_plan_exn_status src items e :
  snd (sweep_plan E src items) = Some e -> exn_status e = 1.
Proof. intros He%sweep_plan_exn. by destruct e. Qed.

(** A loop writes under the names of its pairs only. *)
Lemma sweep_plan_writes_within src items k :
  k ∈ map fst (fst (sweep_plan E src items)) -> k ∈ map fst items.
Proof.
  induction items as [|item rest IH]; [done|].
  cbn [sweep_plan].
  destruct (turn_outcome E src item) as [e|png].
  - simpl. by intros ?%elem_of_nil.
  - destruct (sweep_plan E src rest) as [ws err]. cbn [fst map] in *.
    rewrite !elem_of_cons. intros [->|Hin]; [by left|right; by apply IH].
Qed.

End Plans.

(** ** Running the pieces of the script *)

Section Runs.

Variable E : env.

Lemma bind_run {A B} (c : M A) (k : A -> M B) w :
  bind c k w =
  match c w with
  | (Returned a, w') => k a w'
  | (Raised e, w') => (Raised e, w')
  end.
Proof. reflexivity. Qed.

Lemma print_run line w :
  print line w = (Returned tt, World (files w) (console w ++ [line])).
Proof. reflexivity. Qed.

Lemma svg2png_run f a b s :
  svg2png E f a b s =
  match svg2png_render E (files s !! f) a b with
  | inl msg => (Raised (LibraryError msg), s)
  | inr png => (Returned png, s)
  end.
Proof. reflexivity. Qed.

Lemma write_binary_run name data w :
  write_binary E name data w =
  match open_wb_error E name with
  | Some msg => (Raised (OSError msg), w)
  | None => (Returned tt, World (<[name := data]> (files w)) (console w))
  end.
Proof. reflexivity. Qed.

(** Rasterise, then store: the common part of lines 49-57 and 82-88. *)
Lemma store_turn_run name size w :
  (png_data <- svg2png E "logo.svg" size size ;;
   write_binary E name png_data) w =
  match turn_outcome E (files w !! "logo.svg") (name, size) with
  | inl e => (Raised e, w)
  | inr png => (Returned tt, World (<[name := png]> (files w)) (console w))
  end.
Proof.
  rewrite bind_run, svg2png_run. unfold turn_outcome. simpl.
  destruct (svg2png_render E _ size size) as [msg|png]; [done|].
  rewrite write_binary_run. by destruct (open_wb_error E name).
Qed.

Lemma png_turn_run n s w :
  png_sweep_body E "logo.svg" (n, s) w =
  match turn_outcome E (files w !! "logo.svg") (n, s) with
  | inl e => (Raised e, World (files w) (console w ++ [progress_line (n, s)]))
  | inr png =>
      (Returned tt,
       World (<[n := png]> (files w)) (console w ++ [progress_line (n, s)]))
  end.
Proof.
  unfold png_sweep_body. rewrite bind_run, print_run.
  by rewrite store_turn_run.
Qed.

Lemma png_loop_run items w :
  "logo.svg" ∉ map fst items ->
  for_each items (png_sweep_body E "logo.svg") w =
  let '(ws, err) := sweep_plan E (files w !! "logo.svg") items in
  (plan_outcome err,
   World (write_all ws (files w))
         (console w ++ map progress_line (take (turns_begun ws err) items))).
Proof.
  revert w. induction items as [|[n s] rest IH]; intros w Hlogo.
  - destruct w. simpl. by rewrite app_nil_r.
  - assert (n <> "logo.svg") as Hn by (intros ->; apply Hlogo; simpl; left).
    assert ("logo.svg" ∉ map fst rest) as Hrest
      by (intros Hin; apply Hlogo; simpl; by right).
    cbn [for_each sweep_plan]. rewrite bind_run, png_turn_run.
    destruct (turn_outcome E (files w !! "logo.svg") (n, s)) as [e|png]; [done|].
    rewrite IH by done. cbn [files console fst].
    rewrite lookup_insert_ne by done.
    destruct (sweep_plan E (files w !! "logo.svg") rest) as [ws err].
    rewrite write_all_cons. unfold turns_begun. cbn [length Nat.add take map].
    by rewrite <- app_assoc.
Qed.

Lemma icns_turn_run size w :
  icns_staging_body E "logo.svg" size w =
  match turn_outcome E (files w !! "logo.svg") (icns_filename size, size) with
  | inl e => (Raised e, w)
  | inr png =>
      (Returned tt, World (<[icns_filename size := png]> (files w)) (console w))
  end.
Proof. apply store_turn_run. Qed.

Lemma icns_loop_run szs w :
  "logo.svg" ∉ map icns_filename szs ->
  for_each szs (icns_staging_body E "logo.svg") w =
  let '(ws, err) :=
    sweep_plan E (files w !! "logo.svg")
      (map (fun size => (icns_filename size, size)) szs) in
  (plan_outcome err, World (write_all ws (files w)) (console w)).
Proof.
  revert w. induction szs as [|s rest IH]; intros w Hlogo.
  - by destruct w.
  - assert (icns_filename s <> "logo.svg") as Hn
      by (intros Heq; apply Hlogo; simpl; rewrite Heq; left).
    assert ("logo.svg" ∉ map icns_filename rest) as Hrest
      by (intros Hin; apply Hlogo; simpl; by right).
    cbn [for_each sweep_plan map]. rewrite bind_run, icns_turn_run.
    destruct (turn_outcome E (files w !! "logo.svg") (icns_filename s, s))
      as [e|png]; [by destruct w|].
    rewrite IH by done. cbn [files console fst].
    rewrite lookup_insert_ne by done.
    by destruct (sweep_plan E (files w !! "logo.svg") _) as [ws err].
Qed.

End Runs.

(** ** Running the whole procedure *)

Section Procedure.

Variable E : env.

Lemma sizes_names_NoDup : NoDup (map fst sizes).
Proof. apply (bool_decide_unpack _). by vm_compute. Qed.

Lemma logo_not_in_sizes : "logo.svg" ∉ map fst sizes.
Proof. apply (bool_decide_unpack _). by vm_compute. Qed.

Lemma favicon_ico_not_in_sizes : "favicon.ico" ∉ map fst sizes.
Proof. apply (bool_decide_unpack _). by vm_compute. Qed.

Lemma logo_not_in_icns : "logo.svg" ∉ map icns_filename icns_sizes.
Proof. apply (bool_decide_unpack _). by vm_compute. Qed.

Lemma logo_not_written src :
  "logo.svg" ∉ map fst (run_writes E src).
Proof.
  intros Hin. apply logo_not_in_sizes.
  by apply (sweep_plan_writes_within E src).
Qed.

Lemma png_sweep_run w :
  png_sweep E "logo.svg" w =
  let '(ws, err) := sweep_plan E (files w !! "logo.svg") sizes in
  (plan_outcome err,
   World (write_all ws (files w))
         (console w ++ map progress_line (take (turns_begun ws err) sizes))).
Proof. apply png_loop_run, logo_not_in_sizes. Qed.

(** Whatever the rasteriser answers in the first turn of the ICO loop, the
    turn ends with an exception, and nothing has been written. *)
Lemma ico_assembly_run w :
  ico_assembly E "logo.svg" w =
  (Raised (ico_first_turn E (files w !! "logo.svg")),
   World (files w) (console w ++ ["  favicon.ico"])).
Proof.
  unfold ico_assembly. rewrite bind_run, print_run.
  cbn [ico_sizes ico_loop]. rewrite !bind_run, svg2png_run.
  unfold ico_first_turn. cbn [files].
  by destruct (svg2png_render E (files w !! "logo.svg") 16 16).
Qed.

Lemma icns_staging_run w :
  icns_staging E "logo.svg" w =
  let '(ws, err) := sweep_plan E (files w !! "logo.svg") icns_items in
  (plan_outcome err,
   World (write_all ws (files w))
         (console w ++ ["  icon.icns (replacing existing)"])).
Proof.
  unfold icns_staging. rewrite bind_run, print_run.
  rewrite icns_loop_run by apply logo_not_in_icns. reflexivity.
Qed.

Lemma generate_all_run w :
  generate_all E "logo.svg" w =
  (Raised (run_exn E (files w !! "logo.svg")),
   World (write_all (run_writes E (files w !! "logo.svg")) (files w))
         (console w ++ run_lines E (files w !! "logo.svg"))).
Proof.
  unfold generate_all. rewrite bind_run, print_run, bind_run, png_sweep_run.
  pose proof (logo_not_written (files w !! "logo.svg")) as Hlogo.
  unfold run_exn, run_writes, run_lines in *. cbn [files console].
  destruct (sweep_plan E (files w !! "logo.svg") sizes) as [ws [e|]];
    cbn [plan_outcome fst snd] in *.
  - by rewrite app_nil_r, <- app_assoc.
  - rewrite bind_run, ico_assembly_run. cbn [files console].
    rewrite write_all_other by done. by rewrite <- !app_assoc.
Qed.

(** An import that does not complete ends the call: with [False] after the
    notice, or with what the module raised; the directory is not looked
    at. *)
Lemma import_failure_cases w :
  (exists msg, import_failure E w = (Raised (LibraryError msg), w)) \/
  import_failure E w =
    (Returned false,
     World (files w)
           (console w ++ ["Required packages not found. Please install them:";
                          "pip install cairosvg pillow"])).
Proof.
  unfold import_failure. destruct (imports E); [by right|by right|].
  left. by eexists.
Qed.

(** The ways through lines 11-106. *)
Lemma generate_icons_run w :
  generate_icons E w =
  if installed E "cairosvg" && installed E "PIL" then
    if bool_decide (is_Some (files w !! "logo.svg")) then
      generate_all E "logo.svg" w
    else
      (Returned false,
       World (files w) (console w ++ ["SVG file logo.svg not found!"]))
  else import_failure E w.
Proof.
  unfold generate_icons, capability_check, try_except_ImportError, import_module.
  unfold installed, import_failure, imports. rewrite bind_run.
  destruct (import_of E "cairosvg"); [destruct (import_of E "PIL")|..]; cbn;
    try done; try (by rewrite <- app_assoc).
  by destruct (bool_decide (is_Some (files w !! "logo.svg"))).
Qed.

(** Lines 108-110 on top of the outcome of the call. *)
Lemma run_status w :
  fst (run E w) =
  match fst (generate_icons E w) with
  | Returned true => 0
  | Returned false => 1
  | Raised e => exn_status e
  end.
Proof.
  unfold run, main. rewrite bind_run.
  by destruct (generate_icons E w) as [[[|]|e] w'].
Qed.

Lemma run_world w : snd (run E w) = snd (generate_icons E w).
Proof.
  unfold run, main. rewrite bind_run.
  by destruct (generate_icons E w) as [[[|]|e] w'].
Qed.

Lemma run_exn_status src : exn_status (run_exn E src) = 1.
Proof.
  unfold run_exn.
  destruct (sweep_plan E src sizes) as [ws [e|]] eqn:Hplan; cbn [snd].
  - apply (sweep_plan_exn_status E src sizes). by rewrite Hplan.
  - unfold ico_first_turn. by destruct (svg2png_render E src 16 16).
Qed.

(** No run ends with status 0. *)
Lemma run_status_1 w : fst (run E w) = 1.
Proof.
  rewrite run_status, generate_icons_run.
  destruct (installed E "cairosvg" && installed E "PIL");
    [|by destruct (import_failure_cases w) as [[msg ->] | ->]].
  destruct (bool_decide (is_Some (files w !! "logo.svg"))); [|done].
  rewrite generate_all_run. apply run_exn_status.
Qed.

(** The call never comes back with [True]. *)
Lemma generate_icons_not_True w : fst (generate_icons E w) <> Returned true.
Proof.
  rewrite generate_icons_run.
  destruct (installed E "cairosvg" && installed E "PIL");
    [|by destruct (import_failure_cases w) as [[msg ->] | ->]].
  destruct (bool_decide (is_Some (files w !! "logo.svg"))); [|done].
  by rewrite generate_all_run.
Qed.

(** A turn of the sweep that fails, be it in the rasteriser or in [open],
    ends the call with its exception; what has been printed and written is
    what the turns up to there have printed and written. *)
Lemma failing_turn_aborts_the_run
    (w : world) (svg : bytes) (pre post : list (string * Z))
    (item : string * Z) (e : exn) :
  installed E "cairosvg" = true ->
  installed E "PIL" = true ->
  files w !! "logo.svg" = Some svg ->
  sizes = (pre ++ item :: post)%list ->
  forallb (turn_ok E (Some svg)) pre = true ->
  turn_outcome E (Some svg) item = inl e ->
  exists w',
    generate_icons E w = (Raised e, w') /\
    fst (run E w) = 1 /\
    console w' =
      (console w ++
       "Generating icons..." :: map progress_line (pre ++ [item]))%list /\
    files w' =
      write_all (map (fun it => (fst it, rendered E (Some svg) (snd it))) pre)
                (files w) /\
    (forall n, n ∈ map fst (item :: post) -> files w' !! n = files w !! n).
Proof.
  intros Hc Hp Hlogo Hsplit Hpre Hturn.
  pose proof (sweep_plan_stopped E (Some svg) pre item post _ Hpre Hturn)
    as Hplan.
  rewrite <- Hsplit in Hplan.
  eexists. split.
  { rewrite generate_icons_run, Hc, Hp, Hlogo.
    rewrite bool_decide_eq_true_2 by (by eexists).
    rewrite generate_all_run, Hlogo. unfold run_exn, run_writes, run_lines.
    rewrite Hplan. cbn [fst snd]. reflexivity. }
  cbn [files console]. split; [apply run_status_1|]. split.
  { unfold turns_begun. rewrite length_map, app_nil_r, Hsplit.
    rewrite (take_app_add' pre _ (length pre)) by done.
    reflexivity. }
  split; [done|].
  intros n Hn. apply write_all_other. rewrite map_map. cbn [fst].
  pose proof sizes_names_NoDup as Hnd. rewrite Hsplit, map_app in Hnd.
  apply NoDup_app in Hnd as (_ & Hdisj & _).
  intros Hin. by apply (Hdisj n).
Qed.

End Procedure.

(** * The claims *)

(** ** Capability check and input check *)

(** C6, where the claim fails: with cairosvg installed but unable to load
    the cairo library, the import raises something other than
    [ImportError]; the handler of line 15 does not apply, nothing is
    printed and the call does not return [False]. *)
Lemma broken_import_is_not_caught :
  installed broken_env "cairosvg" = false /\
  generate_icons broken_env sample_world =
    (Raised (LibraryError "no library called cairo was found"), sample_world) /\
  fst (generate_icons broken_env sample_world) <> Returned false.
Proof. by vm_compute. Qed.

(** C6, amended.  When the import of cairosvg or of Pillow does not
    complete, the working directory is left as it was, whatever it holds,
    and the process exits with status 1.  If the failing import raised
    [ImportError], [generate_icons] prints the two-line notice and returns
    [False]; if it raised anything else, that exception leaves
    [generate_icons] and nothing is printed. *)
Theorem failed_import_fails_without_writes (E : env) (w : world) :
  installed E "cairosvg" = false \/ installed E "PIL" = false ->
  files (snd (run E w)) = files w /\
  fst (run E w) = 1 /\
  (import_of E "cairosvg" = NotFound \/
   (import_of E "cairosvg" = Imported /\ import_of E "PIL" = NotFound) ->
   generate_icons E w =
     (Returned false,
      World (files w)
            (console w ++ ["Required packages not found. Please install them:";
                           "pip install cairosvg pillow"]))) /\
  (forall msg,
     import_of E "cairosvg" = StartupFailed msg \/
     (import_of E "cairosvg" = Imported /\ import_of E "PIL" = StartupFailed msg) ->
     generate_icons E w = (Raised (LibraryError msg), w)).
Proof.
  intros Hmiss.
  assert (installed E "cairosvg" && installed E "PIL" = false) as Hboth.
  { destruct Hmiss as [-> | ->]; [done|apply andb_false_r]. }
  rewrite run_world, run_status_1, generate_icons_run, Hboth.
  split; [by destruct (import_failure_cases E w) as [[msg ->] | ->]|].
  split; [done|]. unfold import_failure, imports.
  split; [by intros [-> | [-> ->]] | by intros msg [-> | [-> ->]]].
Qed.

Lemma failed_import_witness :
  (installed bare_env "cairosvg" = false \/ installed bare_env "PIL" = false) /\
  files (snd (run bare_env sample_world)) = files sample_world /\
  fst (generate_icons bare_env sample_world) = Returned false.
Proof.
  pose proof (failed_import_fails_without_writes bare_env sample_world
                (or_introl eq_refl)) as (Hfiles & _ & Hfalse & _).
  split; [by left|]. split; [exact Hfiles|].
  by rewrite (Hfalse (or_introl eq_refl)).
Defined.

(** C5, where the claim fails: with no [logo.svg] and no cairosvg the run
    prints the notice about the packages and never mentions the input
    path. *)
Lemma absent_logo_not_reported_without_capabilities :
  files empty_world !! "logo.svg" = None /\
  console (snd (run bare_env empty_world)) =
    ["Required packages not found. Please install them:";
     "pip install cairosvg pillow"] /\
  "SVG file logo.svg not found!" ∉ console (snd (run bare_env empty_world)).
Proof.
  split; [done|]. split; [by vm_compute|].
  apply (bool_decide_unpack _). by vm_compute.
Qed.

(** C5, amended.  When [logo.svg] does not exist, the working directory is
    left as it was and the process exits with status 1; when both libraries
    were imported, [generate_icons] reports the input path, prints nothing
    else and returns [False]. *)
Theorem absent_logo_fails_without_writes (E : env) (w : world) :
  files w !! "logo.svg" = None ->
  files (snd (run E w)) = files w /\
  fst (run E w) = 1 /\
  (installed E "cairosvg" = true -> installed E "PIL" = true ->
   generate_icons E w =
     (Returned false,
      World (files w) (console w ++ ["SVG file logo.svg not found!"]))).
Proof.
  intros Habsent.
  rewrite run_world, run_status_1, generate_icons_run, Habsent.
  rewrite bool_decide_eq_false_2 by (by intros [? ?]).
  split; [|split; [done|by intros -> ->]].
  destruct (installed E "cairosvg" && installed E "PIL"); [done|].
  by destruct (import_failure_cases E w) as [[msg ->] | ->].
Qed.

Lemma absent_logo_witness :
  files empty_world !! "logo.svg" = None /\
  fst (generate_icons sample_env empty_world) = Returned false /\
  console (snd (generate_icons sample_env empty_world))
    = ["SVG file logo.svg not found!"].
Proof.
  pose proof (absent_logo_fails_without_writes sample_env empty_world eq_refl)
    as (_ & _ & Hrun).
  split; [reflexivity|]. by rewrite (Hrun eq_refl eq_refl).
Defined.

(** C8. Lines 109-110 turn the result of the call into the exit status,
    for any function called there: 0 after [True], 1 after [False], and the
    status of the exception after an uncaught exception; [main] is these
    lines around [generate_icons].  A missing library or a missing
    [logo.svg] makes [generate_icons] return [False], hence status 1; an
    import that fails in any other way ends the process with status 1 as
    well. *)
Theorem exit_status_follows_result (E : env) (w : world) :
  (forall (call : M bool) (v : world),
     exit_status (fst ((ok <- call ;; exit_unless ok) v)) =
     match fst (call v) with
     | Returned true => 0
     | Returned false => 1
     | Raised e => exn_status e
     end) /\
  main E = (ok <- generate_icons E ;; exit_unless ok) /\
  fst (run E w) =
    match fst (generate_icons E w) with
    | Returned true => 0
    | Returned false => 1
    | Raised e => exn_status e
    end /\
  (import_of E "cairosvg" = NotFound \/
   (import_of E "cairosvg" = Imported /\ import_of E "PIL" = NotFound) \/
   (import_of E "cairosvg" = Imported /\ import_of E "PIL" = Imported /\
    files w !! "logo.svg" = None) ->
   fst (generate_icons E w) = Returned false /\ fst (run E w) = 1) /\
  (installed E "cairosvg" = false \/ installed E "PIL" = false \/
   files w !! "logo.svg" = None ->
   fst (run E w) = 1).
Proof.
  split.
  { intros call v. rewrite bind_run.
    by destruct (call v) as [[[|]|e] v']. }
  split; [done|]. split; [apply run_status|]. split; [|intros _; apply run_status_1].
  intros Hpre. rewrite run_status, generate_icons_run.
  unfold installed, import_failure, imports.
  by destruct Hpre as [-> | [[-> ->] | (-> & -> & ->)]].
Qed.

Lemma exit_status_witness :
  (import_of bare_env "cairosvg" = NotFound \/
   (import_of bare_env "cairosvg" = Imported /\
    import_of bare_env "PIL" = NotFound) \/
   (import_of bare_env "cairosvg" = Imported /\
    import_of bare_env "PIL" = Imported /\
    files empty_world !! "logo.svg" = None)) /\
  exit_status (fst ((ok <- ret true ;; exit_unless ok) empty_world)) = 0 /\
  fst (generate_icons bare_env empty_world) = Returned false /\
  fst (run bare_env empty_world) = 1.
Proof.
  pose proof (exit_status_follows_result bare_env empty_world)
    as (Hwire & _ & _ & Hpre & _).
  split; [by left|]. split; [by rewrite Hwire|].
  apply Hpre. by left.
Defined.

(** ** The PNG sweep *)

(** C7. When the rasteriser answers and the file can be opened for each of
    the 11 pairs of [sizes], the sweep returns normally; it has printed the
    progress lines of the pairs in the order of the mapping, every name of
    the mapping holds the bytes rasterised at the size paired with it,
    whatever the file held before, and no other file has changed: the
    files written are the 11 distinct names of the mapping. *)
Theorem png_sweep_writes_the_mapping (E : env) (w : world) :
  forallb (turn_ok E (files w !! "logo.svg")) sizes = true ->
  exists w',
    png_sweep E "logo.svg" w = (Returned tt, w') /\
    console w' = (console w ++ map progress_line sizes)%list /\
    (forall name size, (name, size) ∈ sizes ->
       exists png,
         svg2png_render E (files w !! "logo.svg") size size = inr png /\
         files w' !! name = Some png) /\
    (forall name, name ∉ map fst sizes -> files w' !! name = files w !! name) /\
    dom (files w') = list_to_set (map fst sizes) ∪ dom (files w) /\
    length sizes = 11%nat /\
    NoDup (map fst sizes) /\
    files w' !! "icon_16x16.png" = Some (rendered E (files w !! "logo.svg") 16) /\
    files w' !! "apple-touch-icon.png" =
      Some (rendered E (files w !! "logo.svg") 180).
Proof.
  intros Hok. set (src := files w !! "logo.svg") in *.
  set (ws := map (fun item => (fst item, rendered E src (snd item))) sizes).
  assert (map fst ws = map fst sizes) as Hnames.
  { unfold ws. rewrite map_map. by apply map_ext. }
  assert (forall name size, (name, size) ∈ sizes ->
            files (World (write_all ws (files w)) []) !! name
            = Some (rendered E src size)) as Hlook.
  { intros name size Hin. apply write_all_lookup.
    - rewrite Hnames. apply sizes_names_NoDup.
    - unfold ws. apply list_elem_of_fmap. by exists (name, size). }
  eexists. split.
  { rewrite png_sweep_run. fold src. rewrite (sweep_plan_ok E src sizes Hok).
    fold ws. unfold turns_begun. rewrite Nat.add_0_r.
    rewrite firstn_all2; [reflexivity|]. unfold ws. by rewrite length_map. }
  cbn [files console]. cbn [files] in Hlook.
  split; [done|]. split.
  { intros name size Hin. exists (rendered E src size). split; [|by apply Hlook].
    pose proof (turn_ok_in E src sizes _ Hok Hin) as Hturn.
    unfold turn_ok, turn_outcome, rendered in *. cbn [fst snd] in Hturn.
    by destruct (svg2png_render E src size size). }
  split.
  { intros name Hname. apply write_all_other. by rewrite Hnames. }
  split.
  { by rewrite write_all_dom, Hnames. }
  split; [done|]. split; [apply sizes_names_NoDup|].
  split; apply Hlook; apply (bool_decide_unpack _); by vm_compute.
Qed.

Lemma png_sweep_witness :
  forallb (turn_ok sample_env (files sample_world !! "logo.svg")) sizes = true /\
  exists w', png_sweep sample_env "logo.svg" sample_world = (Returned tt, w') /\
    files w' !! "apple-touch-icon.png" =
      Some (sample_svg ++ String.list_byte_of_string "180x180")%list.
Proof.
  split; [by vm_compute|].
  destruct (png_sweep_writes_the_mapping sample_env sample_world)
    as (w' & Hrun & _ & _ & _ & _ & _ & _ & _ & Happle); [by vm_compute|].
  exists w'. split; [exact Hrun|]. rewrite Happle. by vm_compute.
Defined.

(** C9. Let the rasteriser fail in the turn of the pair [(name, size)] of
    the sweep, the turns of the pairs before it having completed.  Then
    [generate_icons] ends with that very exception (no handler stands in
    its way) and the process exits with status 1; the last line printed is
    the progress line of the failing pair; the files written are those of
    the pairs before it, so that neither the file of the failing pair nor
    the file of any later pair has been touched. *)
Theorem rasteriser_failure_aborts_the_run
    (E : env) (w : world) (svg : bytes)
    (pre post : list (string * Z)) (name : string) (size : Z) (msg : string) :
  installed E "cairosvg" = true ->
  installed E "PIL" = true ->
  files w !! "logo.svg" = Some svg ->
  sizes = (pre ++ (name, size) :: post)%list ->
  forallb (turn_ok E (Some svg)) pre = true ->
  svg2png_render E (Some svg) size size = inl msg ->
  exists w',
    generate_icons E w = (Raised (LibraryError msg), w') /\
    fst (run E w) = 1 /\
    console w' =
      (console w ++
       "Generating icons..." :: map progress_line (pre ++ [(name, size)]))%list /\
    files w' =
      write_all (map (fun it => (fst it, rendered E (Some svg) (snd it))) pre)
                (files w) /\
    (forall n, n ∈ map fst ((name, size) :: post) ->
       files w' !! n = files w !! n).
Proof.
  intros Hc Hp Hlogo Hsplit Hpre Hfail.
  apply (failing_turn_aborts_the_run E w svg pre post (name, size));
    try done.
  unfold turn_outcome. cbn [fst snd]. by rewrite Hfail.
Qed.

Lemma rasteriser_failure_witness :
  exists w',
    generate_icons picky_env sample_world
      = (Raised (LibraryError "render failed"), w') /\
    files w' !! "favicon-96x96.png" = None /\
    files w' !! "apple-touch-icon.png" = None.
Proof.
  destruct (rasteriser_failure_aborts_the_run picky_env sample_world sample_svg
              (take 8 sizes) (drop 9 sizes) "favicon-96x96.png" 96
              "render failed")
    as (w' & Hrun & _ & _ & _ & Hrest);
    [reflexivity | reflexivity | reflexivity | reflexivity
    | by vm_compute | reflexivity |].
  exists w'. split; [exact Hrun|].
  split; (rewrite Hrest; [reflexivity|]);
    apply (bool_decide_unpack _); by vm_compute.
Defined.

(** ** The ICO assembly *)

(** C2. With both libraries imported, [logo.svg] present and a sweep that
    completes, [generate_icons] ends in the first turn of the ICO loop with
    [NameError] for [io]: it does not return, [favicon.ico] is as it was
    (the directory is the one the sweep left), the last line printed is
    the one announcing [favicon.ico], so neither the line of the ICNS
    staging nor any line of the instructions is printed, and the exit
    status is 1. *)
Theorem completed_sweep_ends_in_NameError (E : env) (w : world) (svg : bytes) :
  installed E "cairosvg" = true ->
  installed E "PIL" = true ->
  files w !! "logo.svg" = Some svg ->
  fst (png_sweep E "logo.svg" w) = Returned tt ->
  exists w',
    generate_icons E w = (Raised (NameError "io"), w') /\
    files w' = files (snd (png_sweep E "logo.svg" w)) /\
    files w' !! "favicon.ico" = files w !! "favicon.ico" /\
    console w' =
      (console w ++
       "Generating icons..." :: map progress_line sizes ++ ["  favicon.ico"])%list /\
    Forall (fun line =>
              line ∉ "Generating icons..." ::
                     map progress_line sizes ++ ["  favicon.ico"])
           ("  icon.icns (replacing existing)" :: instructions) /\
    fst (run E w) = 1 /\
    fst (run E w) <> 0.
Proof.
  intros Hc Hp Hlogo Hsweep.
  rewrite png_sweep_run, Hlogo in Hsweep.
  rewrite png_sweep_run, Hlogo.
  destruct (sweep_plan E (Some svg) sizes) as [ws [e|]] eqn:Hplan; [done|].
  pose proof (sweep_plan_completes E (Some svg) sizes) as Hok.
  rewrite Hplan in Hok. specialize (Hok eq_refl).
  pose proof (turn_ok_in E (Some svg) sizes ("icon_16x16.png", 16) Hok) as H16.
  unfold turn_ok, turn_outcome in H16. cbn [fst snd] in H16.
  eexists. split.
  { rewrite generate_icons_run, Hc, Hp, Hlogo.
    rewrite bool_decide_eq_true_2 by (by eexists).
    rewrite generate_all_run, Hlogo.
    unfold run_exn, run_writes, run_lines, ico_first_turn.
    rewrite Hplan. cbn [fst snd].
    destruct (svg2png_render E (Some svg) 16 16) as [msg|png].
    - exfalso. apply (Bool.diff_false_true), H16. by left.
    - reflexivity. }
  cbn [files console snd]. split; [done|]. split.
  { apply write_all_other. intros Hin. apply favicon_ico_not_in_sizes.
    apply (sweep_plan_writes_within E (Some svg)). by rewrite Hplan. }
  split.
  { unfold turns_begun. rewrite Nat.add_0_r.
    pose proof (sweep_plan_ok E (Some svg) sizes Hok) as Hplan'.
    rewrite Hplan in Hplan'. injection Hplan' as ->.
    reflexivity. }
  split.
  { apply (bool_decide_unpack _). by vm_compute. }
  rewrite run_status_1. done.
Qed.

Lemma completed_sweep_witness :
  fst (png_sweep sample_env "logo.svg" sample_world) = Returned tt /\
  fst (generate_icons sample_env sample_world) = Raised (NameError "io").
Proof.
  split; [by vm_compute|].
  destruct (completed_sweep_ends_in_NameError sample_env sample_world sample_svg)
    as (w' & Hrun & _); [reflexivity | reflexivity | reflexivity | by vm_compute |].
  by rewrite Hrun.
Defined.

(** No run writes [favicon.ico]. *)
Lemma favicon_ico_as_it_was (E : env) (w : world) :
  files (snd (generate_icons E w)) !! "favicon.ico" = files w !! "favicon.ico".
Proof.
  rewrite generate_icons_run.
  destruct (installed E "cairosvg" && installed E "PIL");
    [|by destruct (import_failure_cases E w) as [[msg ->] | ->]].
  destruct (bool_decide (is_Some (files w !! "logo.svg"))); [|done].
  rewrite generate_all_run. cbn [snd files].
  apply write_all_other. intros Hin. apply favicon_ico_not_in_sizes.
  by apply (sweep_plan_writes_within E (files w !! "logo.svg")).
Qed.

(** C3, on the code as it is.  In a directory that holds a [logo.svg] which
    the rasteriser accepts at 16, 32, 48 and 64, with both libraries
    installed, the call ends with [NameError] for [io] right after the line
    announcing [favicon.ico]: no image handle has been made and there is no
    [favicon.ico] afterwards. *)
Theorem ico_assembly_stops_at_first_handle :
  forallb (fun size => turn_ok sample_env (Some sample_svg) ("favicon.ico", size))
          ico_sizes = true /\
  fst (generate_icons sample_env sample_world) = Raised (NameError "io") /\
  last (console (snd (generate_icons sample_env sample_world)))
    = Some "  favicon.ico" /\
  files (snd (generate_icons sample_env sample_world)) !! "favicon.ico" = None.
Proof. by vm_compute. Qed.

(** ** The ICNS staging *)

(** C1, where the claim fails: in one and the same directory the ICNS
    staging returns normally, while the ICO assembly ends with [NameError]
    for [io]. *)
Lemma staging_runs_where_ico_assembly_fails :
  fst (icns_staging sample_env "logo.svg" sample_world) = Returned tt /\
  fst (ico_assembly sample_env "logo.svg" sample_world)
    = Raised (NameError "io").
Proof. by vm_compute. Qed.

(** C1, amended.  The ICNS staging never ends with a [NameError]: each name
    it reads is bound.  When the rasteriser answers and the file can be
    opened for each of its six sizes, it returns normally, having printed
    its one line and stored the bytes of each size, as they came from the
    rasteriser, under [icon_{size}x{size}.png]. *)
Theorem icns_staging_resolves_its_names (E : env) (w : world) :
  (forall name, fst (icns_staging E "logo.svg" w) <> Raised (NameError name)) /\
  (forallb (turn_ok E (files w !! "logo.svg")) icns_items = true ->
   icns_staging E "logo.svg" w =
     (Returned tt,
      World (write_all
               (map (fun size =>
                       (icns_filename size,
                        rendered E (files w !! "logo.svg") size))
                    icns_sizes)
               (files w))
            (console w ++ ["  icon.icns (replacing existing)"]))).
Proof.
  rewrite icns_staging_run. split.
  - intros name.
    pose proof (sweep_plan_exn E (files w !! "logo.svg") icns_items) as Hexn.
    destruct (sweep_plan E (files w !! "logo.svg") icns_items) as [ws [e|]];
      cbn [fst snd plan_outcome] in *; [|done].
    intros [= ->]. by specialize (Hexn _ eq_refl).
  - intros Hok. by rewrite (sweep_plan_ok E _ _ Hok).
Qed.

Lemma icns_staging_witness :
  forallb (turn_ok sample_env (files sample_world !! "logo.svg")) icns_items
    = true /\
  fst (icns_staging sample_env "logo.svg" sample_world) = Returned tt.
Proof.
  split; [by vm_compute|].
  rewrite (proj2 (icns_staging_resolves_its_names sample_env sample_world));
    [reflexivity | by vm_compute].
Defined.

(** C4, where the claim fails: each of the six staging names is a name of
    the primary mapping, the two lists together hold 11 distinct names, not
    17, and after the sweep and the staging an empty directory with
    [logo.svg] holds 11 more files. *)
Lemma staged_names_are_primary_names :
  Forall (fun name => name ∈ map fst sizes) (map icns_filename icns_sizes) /\
  length (remove_dups (map fst sizes ++ map icns_filename icns_sizes))%list
    = 11%nat /\
  size (dom (files (snd ((png_sweep sample_env "logo.svg" ;;
                          icns_staging sample_env "logo.svg") sample_world)))
        ∖ {["logo.svg"]}) = 11%nat.
Proof.
  split; [apply (bool_decide_unpack _); by vm_compute|].
  split; by vm_compute.
Qed.

(** C4, amended.  The six pairs of the ICNS staging are the first six pairs
    of the primary mapping, name for name and size for size, so that the
    two loops write to 11 distinct names in all.  After a sweep that has
    completed, the staging returns normally and leaves the directory as the
    sweep left it: the files created are those 11 names. *)
Theorem icns_staging_rewrites_sweep_files (E : env) (w : world) :
  icns_items = take 6 sizes /\
  size (list_to_set (map fst sizes ++ map fst icns_items) : gset string)
    = 11%nat /\
  (fst (png_sweep E "logo.svg" w) = Returned tt ->
   fst (icns_staging E "logo.svg" (snd (png_sweep E "logo.svg" w)))
     = Returned tt /\
   files (snd (icns_staging E "logo.svg" (snd (png_sweep E "logo.svg" w))))
     = files (snd (png_sweep E "logo.svg" w)) /\
   dom (files (snd (png_sweep E "logo.svg" w)))
     = list_to_set (map fst sizes) ∪ dom (files w)).
Proof.
  split; [done|]. split; [by vm_compute|].
  rewrite png_sweep_run. set (src := files w !! "logo.svg").
  destruct (sweep_plan E src sizes) as [ws [e|]] eqn:Hplan; [done|].
  intros _. cbn [snd].
  pose proof (sweep_plan_completes E src sizes) as Hok.
  rewrite Hplan in Hok. specialize (Hok eq_refl).
  pose proof (sweep_plan_ok E src sizes Hok) as Hplan'.
  rewrite Hplan in Hplan'. injection Hplan' as ->.
  set (stored := fun item : string * Z => (fst item, rendered E src (snd item))).
  change (write_all _ (files w)) with (write_all (map stored sizes) (files w)).
  assert (map fst (map stored sizes) = map fst sizes) as Hnames
    by (rewrite map_map; by apply map_ext).
  assert (forallb (turn_ok E src) icns_items = true) as Hok6.
  { apply forallb_forall. intros item Hin%list_elem_of_In.
    apply (turn_ok_in E src sizes _ Hok).
    revert Hin. apply (subseteq_take 6 sizes). }
  rewrite icns_staging_run. cbn [files console].
  rewrite write_all_other
    by (rewrite Hnames; apply logo_not_in_sizes).
  fold src. rewrite (sweep_plan_ok E src icns_items Hok6).
  cbn [fst snd plan_outcome files]. split; [done|]. split.
  - apply write_all_absorb.
    + rewrite Hnames. apply sizes_names_NoDup.
    + change ((stored <$> take 6 sizes) ⊆ (stored <$> sizes)).
      rewrite fmap_take. apply subseteq_take.
  - by rewrite write_all_dom, Hnames.
Qed.

Lemma icns_staging_rewrites_witness :
  fst (png_sweep sample_env "logo.svg" sample_world) = Returned tt /\
  files (snd (icns_staging sample_env "logo.svg"
                (snd (png_sweep sample_env "logo.svg" sample_world))))
    = files (snd (png_sweep sample_env "logo.svg" sample_world)).
Proof.
  split; [by vm_compute|].
  apply (icns_staging_rewrites_sweep_files sample_env sample_world).
  by vm_compute.
Defined.

(** ** Running twice *)

(** C10. A second run in the directory left by a first run ends as the
    first did, performs the very writes of the first (same names, same
    bytes: the rasteriser is a function of the source and the size) and so
    leaves every file with the contents it had. *)
Theorem second_run_changes_nothing (E : env) (w : world) :
  let w1 := snd (run E w) in
  let w2 := snd (run E w1) in
  fst (generate_icons E w1) = fst (generate_icons E w) /\
  fst (run E w1) = fst (run E w) /\
  files w2 = files w1 /\
  exists ws,
    files w1 = write_all ws (files w) /\ files w2 = write_all ws (files w1).
Proof.
  cbn zeta. rewrite !run_status_1, !run_world.
  assert (forall v, exists ws,
            files (snd (generate_icons E v)) = write_all ws (files v) /\
            files (snd (generate_icons E v)) !! "logo.svg" = files v !! "logo.svg" /\
            (forall v', files v' !! "logo.svg" = files v !! "logo.svg" ->
               fst (generate_icons E v') = fst (generate_icons E v) /\
               files (snd (generate_icons E v')) = write_all ws (files v')))
    as Hshape.
  { intros v.
    destruct (installed E "cairosvg" && installed E "PIL") eqn:Hcap;
      [destruct (bool_decide (is_Some (files v !! "logo.svg"))) eqn:Hlogo|].
    - exists (run_writes E (files v !! "logo.svg")).
      rewrite generate_icons_run, Hcap, Hlogo, generate_all_run. cbn [fst snd files].
      split; [done|]. split; [apply write_all_other, logo_not_written|].
      intros v' Hsame.
      rewrite generate_icons_run, Hcap, Hsame, Hlogo, generate_all_run.
      by rewrite Hsame.
    - exists []. rewrite generate_icons_run, Hcap, Hlogo. cbn [fst snd files].
      split; [done|]. split; [done|]. intros v' Hsame.
      by rewrite generate_icons_run, Hcap, Hsame, Hlogo.
    - exists []. rewrite generate_icons_run, Hcap.
      assert (forall u, files (snd (import_failure E u)) = files u /\
                        fst (import_failure E u) = fst (import_failure E v))
        as Hfail.
      { intros u. unfold import_failure. by destruct (imports E). }
      split; [apply Hfail|]. split; [by rewrite (proj1 (Hfail v))|].
      intros v' Hsame. rewrite generate_icons_run, Hcap. apply and_comm, Hfail. }
  destruct (Hshape w) as (ws & Hw1 & Hlogo & Hnext).
  destruct (Hnext (snd (generate_icons E w)) Hlogo) as [Hres Hw2].
  split; [done|]. split; [done|]. split.
  - by rewrite Hw2, Hw1, write_all_twice.
  - by exists ws.
Qed.

(** * Further properties of the script *)

(** ** Every run, whatever the environment *)

Section EveryRun.

Variable E : env.

(** The writes of a loop are the pairs of a prefix of its list, each with
    the bytes rasterised for it. *)
Lemma sweep_plan_prefix src items :
  (length (fst (sweep_plan E src items)) <= length items)%nat /\
  fst (sweep_plan E src items) =
    map (stored E src) (take (length (fst (sweep_plan E src items))) items) /\
  forallb (turn_ok E src) (take (length (fst (sweep_plan E src items))) items)
    = true.
Proof.
  induction items as [|item rest (Hlen & Hws & Hok)]; [done|].
  cbn [sweep_plan].
  destruct (turn_outcome E src item) as [e|png] eqn:Hturn.
  { cbn. split; [lia|done]. }
  destruct (sweep_plan E src rest) as [ws err].
  cbn [fst length take map forallb] in *.
  unfold turn_ok at 1. rewrite Hturn. split; [lia|]. split; [|done].
  rewrite <- Hws. f_equal. unfold stored. f_equal.
  unfold turn_outcome, rendered in *.
  destruct (svg2png_render E src (snd item) (snd item)); [done|].
  destruct (open_wb_error E (fst item)); congruence.
Qed.

Lemma stored_names src items :
  map fst (map (stored E src) items) = map fst items.
Proof. rewrite map_map. by apply map_ext. Qed.

(** The directory after a call, in every case. *)
Lemma generate_icons_files w :
  exists k,
    (k <= length sizes)%nat /\
    forallb (turn_ok E (files w !! "logo.svg")) (take k sizes) = true /\
    files (snd (generate_icons E w)) =
      write_all (map (stored E (files w !! "logo.svg")) (take k sizes))
                (files w).
Proof.
  rewrite generate_icons_run.
  destruct (installed E "cairosvg" && installed E "PIL");
    [destruct (bool_decide (is_Some (files w !! "logo.svg")))|];
    [|by exists 0%nat; split; [cbn; lia|]|].
  2: { exists 0%nat. split; [cbn; lia|]. split; [done|].
       by destruct (import_failure_cases E w) as [[msg ->] | ->]. }
  rewrite generate_all_run. cbn [snd files]. unfold run_writes.
  destruct (sweep_plan_prefix (files w !! "logo.svg") sizes) as (Hlen & Hws & Hok).
  eexists. split; [exact Hlen|]. split; [exact Hok|]. by rewrite <- Hws.
Qed.

End EveryRun.

(** X1. No call of [generate_icons] returns [True], and every run of the
    script ends with exit status 1. *)
Theorem every_run_exits_with_1 (E : env) (w : world) :
  fst (generate_icons E w) <> Returned true /\ fst (run E w) = 1.
Proof. split; [apply generate_icons_not_True | apply run_status_1]. Qed.

(** X2. [generate_icons] returns [False] exactly when an import raises
    [ImportError] (that of cairosvg, or that of Pillow after cairosvg was
    imported), or both imports complete and [logo.svg] does not exist.  In
    every other case it ends with an exception. *)
Theorem returns_False_iff_precondition_fails (E : env) (w : world) :
  (fst (generate_icons E w) = Returned false <->
   (import_of E "cairosvg" = NotFound \/
    (import_of E "cairosvg" = Imported /\ import_of E "PIL" = NotFound) \/
    (import_of E "cairosvg" = Imported /\ import_of E "PIL" = Imported /\
     files w !! "logo.svg" = None))) /\
  (fst (generate_icons E w) <> Returned false ->
   exists e, fst (generate_icons E w) = Raised e).
Proof.
  rewrite generate_icons_run. unfold installed, import_failure, imports.
  destruct (import_of E "cairosvg") eqn:Hc; cbn [andb fst].
  - destruct (import_of E "PIL") eqn:Hp; cbn [andb fst].
    + destruct (files w !! "logo.svg") as [svg|] eqn:Hlogo.
      * rewrite bool_decide_eq_true_2 by (by eexists).
        rewrite generate_all_run. cbn [fst]. split; [|by eexists].
        split; [done|]. by intros [?|[[_ ?]|(_ & _ & ?)]].
      * rewrite bool_decide_eq_false_2 by (by intros [? ?]).
        split; [|done]. split; [|done]. intros _. right. by right.
    + split; [|done]. split; [|done]. intros _. right. by left.
    + split; [|by eexists]. split; [done|].
      by intros [?|[[_ ?]|(_ & ? & _)]].
  - split; [|done]. split; [|done]. intros _. by left.
  - split; [|by eexists]. split; [done|].
    by intros [?|[[? _]|(? & _ & _)]].
Qed.

Lemma returns_False_witness :
  fst (generate_icons sample_env empty_world) = Returned false /\
  exists e, fst (generate_icons broken_env empty_world) = Raised e.
Proof.
  split.
  - apply (returns_False_iff_precondition_fails sample_env empty_world).
    right. by right.
  - by apply (returns_False_iff_precondition_fails broken_env empty_world).
Defined.

(** X4. A run changes no file other than the 11 names of the primary
    mapping: [logo.svg], [favicon.ico] and every unrelated file are as they
    were.  It deletes nothing. *)
Theorem run_touches_only_mapping_names (E : env) (w : world) :
  (forall name, name ∉ map fst sizes ->
     files (snd (run E w)) !! name = files w !! name) /\
  files (snd (run E w)) !! "logo.svg" = files w !! "logo.svg" /\
  files (snd (run E w)) !! "favicon.ico" = files w !! "favicon.ico" /\
  dom (files w) ⊆ dom (files (snd (run E w))).
Proof.
  rewrite run_world.
  destruct (generate_icons_files E w) as (k & _ & _ & ->).
  assert (forall name, name ∉ map fst sizes ->
            write_all (map (stored E (files w !! "logo.svg")) (take k sizes))
                      (files w) !! name = files w !! name) as Hframe.
  { intros name Hname. apply write_all_other. rewrite stored_names.
    intros Hin. apply Hname.
    apply list_elem_of_fmap in Hin as (item & -> & Hin).
    apply list_elem_of_fmap_2. by apply (subseteq_take k sizes). }
  split; [exact Hframe|].
  split; [apply Hframe, logo_not_in_sizes|].
  split; [apply Hframe, favicon_ico_not_in_sizes|].
  rewrite write_all_dom. apply union_subseteq_r.
Qed.


Lemma sweep_plan_with_pillow E open_ encode src items :
  sweep_plan (with_pillow E open_ encode) src items = sweep_plan E src items.
Proof.
  induction items as [|item rest IH]; [done|].
  cbn [sweep_plan]. by rewrite IH.
Qed.

(** X7. Pillow is never called: replacing [Image.open] and the ICO encoder
    by any other functions changes neither the outcome of a call nor the
    directory and the console it leaves. *)
Theorem pillow_is_never_called (E : env) (w : world)
    (open_ : bytes -> string + image)
    (encode : image -> list (Z * Z) -> string + bytes) :
  generate_icons (with_pillow E open_ encode) w = generate_icons E w.
Proof.
  rewrite !generate_icons_run, !generate_all_run.
  unfold run_exn, run_writes, run_lines.
  by rewrite sweep_plan_with_pillow.
Qed.

(** ** Failures on the way *)

(** X8. Let [open] fail for the file of a pair of the sweep whose raster
    was produced, the turns of the pairs before it having completed.  Then
    [generate_icons] ends with that [OSError]; the last line printed is the
    progress line of that pair; the files of the pairs before it are
    written, while its own file and those of the later pairs are as they
    were. *)
Theorem open_failure_aborts_the_run
    (E : env) (w : world) (svg png : bytes)
    (pre post : list (string * Z)) (name : string) (size : Z) (msg : string) :
  installed E "cairosvg" = true ->
  installed E "PIL" = true ->
  files w !! "logo.svg" = Some svg ->
  sizes = (pre ++ (name, size) :: post)%list ->
  forallb (turn_ok E (Some svg)) pre = true ->
  svg2png_render E (Some svg) size size = inr png ->
  open_wb_error E name = Some msg ->
  exists w',
    generate_icons E w = (Raised (OSError msg), w') /\
    console w' =
      (console w ++
       "Generating icons..." :: map progress_line (pre ++ [(name, size)]))%list /\
    files w' = write_all (map (stored E (Some svg)) pre) (files w) /\
    (forall n, n ∈ map fst ((name, size) :: post) ->
       files w' !! n = files w !! n).
Proof.
  intros Hc Hp Hlogo Hsplit Hpre Hpng Hopen.
  destruct (failing_turn_aborts_the_run E w svg pre post (name, size)
              (OSError msg)) as (w' & Hrun & _ & Hcon & Hfiles & Hrest);
    try done.
  { unfold turn_outcome. cbn [fst snd]. by rewrite Hpng, Hopen. }
  by exists w'.
Qed.

Lemma open_failure_witness :
  exists w',
    generate_icons locked_env sample_world
      = (Raised (OSError "Permission denied"), w') /\
    files w' !! "icon_128x128.png" = None.
Proof.
  destruct (open_failure_aborts_the_run locked_env sample_world sample_svg
              (sample_svg ++ String.list_byte_of_string "128x128")%list
              (take 2 sizes) (drop 3 sizes) "icon_128x128.png" 128
              "Permission denied")
    as (w' & Hrun & _ & _ & Hrest);
    [reflexivity | reflexivity | reflexivity | reflexivity
    | by vm_compute | by vm_compute | reflexivity |].
  exists w'. split; [exact Hrun|].
  rewrite Hrest; [reflexivity|]. apply (bool_decide_unpack _). by vm_compute.
Defined.

Lemma forallb_over_map {A B} (f : B -> bool) (g : A -> B) (l : list A) :
  forallb f (map g l) = forallb (fun x => f (g x)) l.
Proof. induction l as [|x l IH]; [done|]. cbn. by rewrite IH. Qed.

Lemma icns_names_NoDup : NoDup (map icns_filename icns_sizes).
Proof. apply (bool_decide_unpack _). by vm_compute. Qed.

(** X9. Let the rasteriser fail at a size of the ICNS staging, the turns
    of the sizes before it having completed.  Then the staging ends with
    that exception, having stored the files of the earlier sizes; the file
    of the failing size and those of the later sizes are as they were. *)
Theorem icns_staging_failure_keeps_the_rest
    (E : env) (w : world) (pre post : list Z) (size : Z) (msg : string) :
  icns_sizes = (pre ++ size :: post)%list ->
  forallb (fun s => turn_ok E (files w !! "logo.svg") (icns_filename s, s)) pre
    = true ->
  svg2png_render E (files w !! "logo.svg") size size = inl msg ->
  exists w',
    icns_staging E "logo.svg" w = (Raised (LibraryError msg), w') /\
    console w' = (console w ++ ["  icon.icns (replacing existing)"])%list /\
    files w' =
      write_all (map (fun s => (icns_filename s,
                                rendered E (files w !! "logo.svg") s)) pre)
                (files w) /\
    (forall s, s ∈ size :: post ->
       files w' !! icns_filename s = files w !! icns_filename s).
Proof.
  intros Hsplit Hpre Hfail. set (src := files w !! "logo.svg") in *.
  set (item := fun s : Z => (icns_filename s, s)).
  assert (sweep_plan E src icns_items =
          (map (fun it => (fst it, rendered E src (snd it))) (map item pre),
           Some (LibraryError msg))) as Hplan.
  { unfold icns_items. rewrite Hsplit, map_app. cbn [map].
    apply sweep_plan_stopped.
    - by rewrite forallb_over_map.
    - unfold turn_outcome. cbn [fst snd]. by rewrite Hfail. }
  eexists. split.
  { rewrite icns_staging_run. fold src. rewrite Hplan. reflexivity. }
  cbn [files console]. split; [done|]. rewrite map_map. split; [done|].
  intros s Hs. apply write_all_other. rewrite map_map. cbn [fst].
  pose proof icns_names_NoDup as Hnd. rewrite Hsplit, map_app in Hnd.
  apply NoDup_app in Hnd as (_ & Hdisj & _).
  intros Hin. apply (Hdisj _ Hin). by apply list_elem_of_fmap_2.
Qed.

Lemma icns_staging_failure_witness :
  exists w',
    icns_staging (refusing_env 256) "logo.svg" sample_world
      = (Raised (LibraryError "render failed"), w') /\
    files w' !! "icon_512x512.png" = None.
Proof.
  destruct (icns_staging_failure_keeps_the_rest (refusing_env 256) sample_world
              [16; 32; 128] [512; 1024] 256 "render failed")
    as (w' & Hrun & _ & _ & Hrest);
    [reflexivity | by vm_compute | by vm_compute |].
  exists w'. split; [exact Hrun|].
  change (files w' !! icns_filename 512 = None).
  rewrite (Hrest 512); [reflexivity|].
  apply (bool_decide_unpack _). by vm_compute.
Defined.

(** X10. The ICNS staging changes no file other than its six
    [icon_{size}x{size}.png], and it deletes nothing. *)
Theorem icns_staging_touches_only_its_names (E : env) (w : world) :
  (forall name, name ∉ map icns_filename icns_sizes ->
     files (snd (icns_staging E "logo.svg" w)) !! name = files w !! name) /\
  dom (files w) ⊆ dom (files (snd (icns_staging E "logo.svg" w))).
Proof.
  rewrite icns_staging_run.
  pose proof (sweep_plan_writes_within E (files w !! "logo.svg") icns_items)
    as Hwithin.
  destruct (sweep_plan E (files w !! "logo.svg") icns_items) as [ws err].
  cbn [fst snd files] in *. split.
  - intros name Hname. apply write_all_other. intros Hin. apply Hname.
    apply Hwithin in Hin. unfold icns_items in Hin.
    by rewrite map_map in Hin.
  - rewrite write_all_dom. apply union_subseteq_r.
Qed.

(** ** File names *)

Lemma length_append (s t : string) :
  String.length (s ++ t) = (String.length s + String.length t)%nat.
Proof.
  induction s as [|c s IH]; [done|].
  cbn [String.length Nat.add]. rewrite <- IH. reflexivity.
Qed.

Lemma append_inj_l (s1 s2 t1 t2 : string) :
  String.length s1 = String.length s2 ->
  s1 ++ t1 = s2 ++ t2 -> s1 = s2.
Proof.
  revert s2. induction s1 as [|c s1 IH]; intros [|d s2]; try done.
  intros [= Hlen] Happ.
  change (String c (s1 ++ t1) = String d (s2 ++ t2)) in Happ.
  injection Happ as -> Happ. f_equal. by apply IH.
Qed.

Lemma to_int_proper (z : Z) :
  Z.to_int z <> Decimal.Pos Decimal.Nil /\ Z.to_int z <> Decimal.Neg Decimal.Nil.
Proof.
  destruct z as [|p|p]; cbn; (split; [|]); try discriminate;
    intros [= Hp]; by apply DecimalPos.Unsigned.to_uint_nonnil in Hp.
Qed.

(** [str] of an integer can be read back. *)
Lemma str_int_inj (a b : Z) : str_int a = str_int b -> a = b.
Proof.
  unfold str_int. intros H. apply (f_equal NilZero.int_of_string) in H.
  rewrite !NilZero.isi in H by apply to_int_proper.
  injection H as H.
  rewrite <- (DecimalZ.of_to a), <- (DecimalZ.of_to b). by rewrite H.
Qed.

(** X11. The file name of line 87 determines the size: two sizes are
    staged under the same name only if they are equal. *)
Theorem icns_filename_inj (a b : Z) :
  icns_filename a = icns_filename b -> a = b.
Proof.
  unfold icns_filename. intros H. injection H as H.
  change (str_int a ++ "x" ++ str_int a ++ ".png"
          = str_int b ++ "x" ++ str_int b ++ ".png") in H.
  apply str_int_inj. apply (append_inj_l _ _ _ _) in H; [done|].
  apply (f_equal String.length) in H.
  rewrite !length_append in H. cbn [String.length] in H. lia.
Qed.

Lemma icns_filename_inj_witness : icns_filename 16 = icns_filename 16 /\ 16 = 16.
Proof.
  split; [reflexivity|]. by apply (icns_filename_inj 16 16).
Defined.

(** ** The ICO assembly, piece by piece *)

(** X12. The loop of lines 64-71 over an empty list hands back the handles
    it was given; over any list that is not empty it never completes its
    first turn: it ends with what the rasteriser raised or with [NameError]
    for [io], and leaves the directory and the console as they were. *)
Theorem ico_loop_stops_in_first_turn
    (E : env) (svg_file : string) (size : Z) (rest : list Z)
    (ico_images : list image) (w : world) :
  ico_loop E svg_file [] ico_images w = (Returned ico_images, w) /\
  exists e,
    ico_loop E svg_file (size :: rest) ico_images w = (Raised e, w) /\
    (e = NameError "io" \/ exists msg, e = LibraryError msg).
Proof.
  split; [done|]. cbn [ico_loop]. rewrite !bind_run, svg2png_run.
  destruct (svg2png_render E (files w !! svg_file) size size) as [msg|png].
  - eexists. split; [done|]. right. by eexists.
  - eexists. split; [done|]. by left.
Qed.
